(** * polyaxon_k8s: the K8SManager reconciliation layer

    A shallow embedding of [polyaxon_k8s/manager.py] and
    [polyaxon_k8s/constants.py].  The Kubernetes client is an external
    collaborator: it is modelled as an oracle that answers every API call,
    given the calls issued so far, with a value, with an [ApiException] or
    with an exception of another class.
    A method of [K8SManager] is a function from the cluster and the world
    (call history and log) to the new world and the method's result, which
    is either a returned Python value or a raised exception. *)

From Stdlib Require Import String List ZArith Bool.
Import ListNotations.
Open Scope string_scope.
Set Warnings "-register-all".

(** ** constants.py *)

Module constants.
Definition K8S_API_VERSION_V1 : string := "v1".
Definition K8S_API_VERSION_V1_BETA1 : string := "extensions/v1beta1".
Definition K8S_PERSISTENT_VOLUME_KIND : string := "PersistentVolume".
Definition K8S_PERSISTENT_VOLUME_CLAIM_KIND : string := "PersistentVolumeClaim".
Definition K8S_CONFIG_MAP_KIND : string := "ConfigMap".
Definition K8S_SECRET_KIND : string := "Secret".
Definition K8S_POD_KIND : string := "Pod".
Definition K8S_POD_TEMPLATE_KIND : string := "PodTemplate".
Definition K8S_DEPLOYMENT_KIND : string := "Deployment".
Definition K8S_SERVICE_KIND : string := "Service".
Definition K8S_INGRESS_KIND : string := "Ingress".
End constants.

(** ** Python values *)

(** The values the manager handles: [None], strings, numbers, lists and
    dicts.  Bodies and labels are caller-supplied and passed through. *)
Inductive PyValue : Type :=
| PyNone
| PyStr (s : string)
| PyInt (z : Z)
| PyList (l : list PyValue)
| PyDict (d : list (string * PyValue)).

(** Python's truth value of an object ([bool(x)]). *)
Definition truthy (v : PyValue) : bool :=
  match v with
  | PyNone => false
  | PyStr s => negb (String.eqb s "")
  | PyInt z => negb (Z.eqb z 0)
  | PyList l => match l with [] => false | _ :: _ => true end
  | PyDict d => match d with [] => false | _ :: _ => true end
  end.

(** ** The client library: exceptions, models and API calls *)

(** [kubernetes.client.rest.ApiException]: the HTTP status and reason. *)
Record ApiException : Type := mkApiException {
  status : Z;
  reason : string
}.

(** What else a client call can raise: an exception that is not an
    [ApiException], such as urllib3's [MaxRetryError] when the server
    cannot be reached or the [ValueError] of the client's own argument
    checks.  No handler of the manager names these classes. *)
Record OtherException : Type := mkOtherException {
  exc_class : string;
  exc_message : string
}.

(** How a call failed. *)
Inductive Failure : Type :=
| ApiFailure (e : ApiException)
| OtherFailure (x : OtherException).

(** [client.V1DeleteOptions(api_version=..., propagation_policy=...)]; the
    fields the manager never sets stay [None] and are left out. *)
Record V1DeleteOptions : Type := mkV1DeleteOptions {
  api_version : option string;
  propagation_policy : option string
}.

(** [VersionInfo], seen through its [to_dict()]. *)
Record VersionInfo : Type := mkVersionInfo {
  to_dict : list (string * PyValue)
}.

(** [V1NodeList], seen through its [items]. *)
Record V1NodeList : Type := mkV1NodeList {
  items : list PyValue
}.

(** The client methods the manager calls, with their arguments in the order
    of the source.  [get_code] belongs to [VersionApi], the deployment calls
    to [ExtensionsV1beta1Api], all others to [CoreV1Api]. *)
Inductive Call : Type :=
| get_code
| list_node
| patch_node (name : string) (body : PyValue)
| read_namespaced_config_map (name ns : string)
| patch_namespaced_config_map (name ns : string) (body : PyValue)
| create_namespaced_config_map (ns : string) (body : PyValue)
| delete_namespaced_config_map (name ns : string) (opts : V1DeleteOptions)
| read_namespaced_service (name ns : string)
| patch_namespaced_service (name ns : string) (body : PyValue)
| create_namespaced_service (ns : string) (body : PyValue)
| delete_namespaced_service (name ns : string)
| read_namespaced_pod (name ns : string)
| patch_namespaced_pod (name ns : string) (body : PyValue)
| create_namespaced_pod (ns : string) (body : PyValue)
| delete_namespaced_pod (name ns : string) (opts : V1DeleteOptions)
| read_namespaced_deployment (name ns : string)
| patch_namespaced_deployment (name ns : string) (body : PyValue)
| create_namespaced_deployment (ns : string) (body : PyValue)
| delete_namespaced_deployment (name ns : string) (opts : V1DeleteOptions)
| read_persistent_volume (name : string)
| patch_persistent_volume (name : string) (body : PyValue)
| create_persistent_volume (body : PyValue)
| delete_persistent_volume (name : string) (opts : V1DeleteOptions)
| read_namespaced_persistent_volume_claim (name ns : string)
| patch_namespaced_persistent_volume_claim (name ns : string) (body : PyValue)
| create_namespaced_persistent_volume_claim (ns : string) (body : PyValue)
| delete_namespaced_persistent_volume_claim (name ns : string)
    (opts : V1DeleteOptions).

(** What a call returns when it does not raise. *)
Definition ret_type (c : Call) : Type :=
  match c with
  | get_code => VersionInfo
  | list_node => V1NodeList
  | _ => PyValue
  end.

Inductive Response (A : Type) : Type :=
| Returns (a : A)
| Raises (e : ApiException)
| RaisesOther (x : OtherException).
Arguments Returns {A} a.
Arguments Raises {A} e.
Arguments RaisesOther {A} x.

(** The failure a response carries, if any. *)
Definition failure {A : Type} (r : Response A) : option Failure :=
  match r with
  | Returns _ => None
  | Raises e => Some (ApiFailure e)
  | RaisesOther x => Some (OtherFailure x)
  end.

(** The cluster behind the client: it answers a call knowing the calls
    that came before it. *)
Definition Cluster : Type := forall (h : list Call) (c : Call), Response (ret_type c).

(** ** The logger *)

Inductive Level : Type := DEBUG | INFO | WARNING | ERROR.

(** The argument of [template.format(arg)]. *)
Inductive FormatArg : Type :=
| ArgStr (s : string)
| ArgExc (e : ApiException).

Record LogRecord : Type := mkLogRecord {
  levelname : Level;
  template : string;
  arg : FormatArg
}.

(** ** Worlds, results and the method monad *)

Record World : Type := mkWorld {
  history : list Call;
  log : list LogRecord
}.

Definition empty_world : World := mkWorld [] [].

(** [PolyaxonK8SError(e)] wraps the client's exception; an [ApiException]
    that nobody catches reaches the caller as it is, and so does every
    exception of another class. *)
Inductive Exn : Type :=
| RaisedApiException (e : ApiException)
| PolyaxonK8SError (e : ApiException)
| RaisedOther (x : OtherException).

Inductive Result (A : Type) : Type :=
| Returned (a : A)
| Raised (x : Exn).
Arguments Returned {A} a.
Arguments Raised {A} x.

(** A block of statements of a method with local variables of type [L]. *)
Definition M (L A : Type) : Type :=
  Cluster -> L -> World -> L * World * Result A.

(** A method, called. *)
Definition Method (A : Type) : Type := Cluster -> World -> World * Result A.

Definition ret {L A : Type} (a : A) : M L A :=
  fun _ l w => (l, w, Returned a).

Definition bind {L A B : Type} (m : M L A) (k : A -> M L B) : M L B :=
  fun cl l w =>
    match m cl l w with
    | (l', w', Returned a) => k a cl l' w'
    | (l', w', Raised x) => (l', w', Raised x)
    end.

Declare Scope py_scope.
Delimit Scope py_scope with py.
Notation "x <- m ;; k" := (bind m (fun x => k))
  (at level 61, m at next level, right associativity) : py_scope.
Notation "m ;; k" := (bind m (fun _ => k))
  (at level 61, right associativity) : py_scope.
Open Scope py_scope.

Definition raise {L A : Type} (x : Exn) : M L A :=
  fun _ l w => (l, w, Raised x).

(** Assignment to, and reading of, the method's local variable. *)
Definition assign {L : Type} (v : L) : M L unit :=
  fun _ _ w => (v, w, Returned tt).

Definition local {L : Type} : M L L :=
  fun _ l w => (l, w, Returned l).

(** A client call: it is recorded in the history and answered by the
    cluster from the history before it. *)
Definition api {L : Type} (c : Call) : M L (ret_type c) :=
  fun cl l w =>
    let w' := mkWorld (history w ++ [c]) (log w) in
    match cl (history w) c with
    | Returns a => (l, w', Returned a)
    | Raises e => (l, w', Raised (RaisedApiException e))
    | RaisesOther x => (l, w', Raised (RaisedOther x))
    end.

Definition logger {L : Type} (lv : Level) (t : string) (a : FormatArg) : M L unit :=
  fun _ l w => (l, mkWorld (history w) (log w ++ [mkLogRecord lv t a]), Returned tt).

(** [try: body except ApiException as e: handler e].  Only an
    [ApiException] is caught; the handler sees the local variables as the
    body left them, and what the handler raises is not caught again. *)
Definition try_except {L A : Type} (body : M L A) (handler : ApiException -> M L A)
  : M L A :=
  fun cl l w =>
    match body cl l w with
    | (l', w', Raised (RaisedApiException e)) => handler e cl l' w'
    | r => r
    end.

(** Calling a method whose local variable starts as [init]. *)
Definition def {L A : Type} (init : L) (body : M L A) : Method A :=
  fun cl w => let '(_, w', r) := body cl init w in (w', r).

(** ** K8SManager *)

(** The manager keeps three API handles on one client and the namespace;
    the handles are the [Cluster] every method is run against. *)
Record K8SManager : Type := mkK8SManager {
  namespace : string
}.

Definition get_version (self : K8SManager) (reraise : bool) : Method PyValue :=
  def tt (
    try_except
      (v <- api get_code ;;
       ret (PyDict (to_dict v)))
      (fun e =>
         logger ERROR "K8S error: {}" (ArgExc e) ;;
         if reraise then raise (PolyaxonK8SError e) else ret PyNone)).

Definition get_node_items (self : K8SManager) (reraise : bool) : Method PyValue :=
  def tt (
    try_except
      (res <- api list_node ;;
       ret (PyList (map (fun p => p) (items res))))
      (fun e =>
         logger ERROR "K8S error: {}" (ArgExc e) ;;
         if reraise then raise (PolyaxonK8SError e) else ret PyNone)).

Definition update_node_labels (self : K8SManager) (node : string) (labels : PyValue) (reraise : bool)
  : Method PyValue :=
  let body := PyDict [("metadata", PyDict [("labels", labels)])] in
  def tt (
    try_except
      (_ <- api (patch_node node body) ;;
       ret PyNone)
      (fun e =>
         logger ERROR "K8S error: {}" (ArgExc e) ;;
         if reraise then raise (PolyaxonK8SError e) else ret PyNone)).

Definition create_or_update_config_map (self : K8SManager) (name : string) (body : PyValue)
    (reraise : bool) : Method PyValue :=
  def false (
    try_except
      (_ <- api (read_namespaced_config_map name (namespace self)) ;;
       assign true ;;
       logger DEBUG "A config map with name `{}` was found" (ArgStr name) ;;
       _ <- api (patch_namespaced_config_map name (namespace self) body) ;;
       logger DEBUG "Config map `{}` was patched" (ArgStr name) ;;
       ret PyNone)
      (fun e =>
         config_map_found <- local ;;
         if config_map_found : bool then
           logger ERROR "K8S error: {}" (ArgExc e) ;;
           if reraise then raise (PolyaxonK8SError e) else ret PyNone
         else
           _ <- api (create_namespaced_config_map (namespace self) body) ;;
           logger DEBUG "Config map `{}` was created" (ArgStr name) ;;
           ret PyNone)).

Definition delete_config_map (self : K8SManager) (name : string) (reraise : bool) : Method PyValue :=
  def false (
    try_except
      (_ <- api (read_namespaced_config_map name (namespace self)) ;;
       assign true ;;
       _ <- api (delete_namespaced_config_map name (namespace self)
                   (mkV1DeleteOptions (Some constants.K8S_API_VERSION_V1) None)) ;;
       logger DEBUG "Config map `{}` Deleted" (ArgStr name) ;;
       ret PyNone)
      (fun e =>
         config_map_found <- local ;;
         if config_map_found : bool then
           logger WARNING "Could not delete config map `{}`" (ArgStr name) ;;
           if reraise then raise (PolyaxonK8SError e) else ret PyNone
         else
           logger DEBUG "Config map `{}` was not found" (ArgStr name) ;;
           ret PyNone)).

Definition create_or_update_service (self : K8SManager) (name : string) (data : PyValue)
  : Method PyValue :=
  def false (
    try_except
      (_ <- api (read_namespaced_service name (namespace self)) ;;
       assign true ;;
       logger DEBUG "A service with name `{}` was found" (ArgStr name) ;;
       _ <- api (patch_namespaced_service name (namespace self) data) ;;
       logger DEBUG "Service `{}` was patched" (ArgStr name) ;;
       ret PyNone)
      (fun e =>
         service_found <- local ;;
         if service_found : bool then raise (PolyaxonK8SError e)
         else
           _ <- api (create_namespaced_service (namespace self) data) ;;
           logger DEBUG "Service `{}` was created" (ArgStr name) ;;
           ret PyNone)).

Definition create_or_update_pod (self : K8SManager) (name : string) (data : PyValue)
  : Method PyValue :=
  def false (
    try_except
      (_ <- api (read_namespaced_pod name (namespace self)) ;;
       assign true ;;
       logger DEBUG "A pod with name `{}` was found" (ArgStr name) ;;
       _ <- api (patch_namespaced_pod name (namespace self) data) ;;
       logger DEBUG "Pod `{}` was patched" (ArgStr name) ;;
       ret PyNone)
      (fun e =>
         pod_found <- local ;;
         if pod_found : bool then raise (PolyaxonK8SError e)
         else
           _ <- api (create_namespaced_pod (namespace self) data) ;;
           logger DEBUG "Pod `{}` was created" (ArgStr name) ;;
           ret PyNone)).

Definition create_or_update_deployment (self : K8SManager) (name : string) (data : PyValue)
  : Method PyValue :=
  def false (
    try_except
      (_ <- api (read_namespaced_deployment name (namespace self)) ;;
       assign true ;;
       logger INFO "A deployment with name `{}` was found" (ArgStr name) ;;
       _ <- api (patch_namespaced_deployment name (namespace self) data) ;;
       logger INFO "Deployment `{}` was patched" (ArgStr name) ;;
       ret PyNone)
      (fun e =>
         deployment_found <- local ;;
         if deployment_found : bool then raise (PolyaxonK8SError e)
         else
           _ <- api (create_namespaced_deployment (namespace self) data) ;;
           logger INFO "Deployment `{}` was created" (ArgStr name) ;;
           ret PyNone)).

Definition delete_service (self : K8SManager) (name : string) : Method PyValue :=
  def false (
    try_except
      (_ <- api (read_namespaced_service name (namespace self)) ;;
       assign true ;;
       _ <- api (delete_namespaced_service name (namespace self)) ;;
       logger DEBUG "Service `{}` deleted" (ArgStr name) ;;
       ret PyNone)
      (fun e =>
         service_found <- local ;;
         if service_found : bool then
           logger WARNING "Could not delete service `{}`" (ArgStr name) ;;
           raise (PolyaxonK8SError e)
         else
           logger DEBUG "Service `{}` was not found" (ArgStr name) ;;
           ret PyNone)).

Definition delete_pod (self : K8SManager) (name : string) : Method PyValue :=
  def false (
    try_except
      (_ <- api (read_namespaced_pod name (namespace self)) ;;
       assign true ;;
       _ <- api (delete_namespaced_pod name (namespace self)
                   (mkV1DeleteOptions (Some constants.K8S_API_VERSION_V1) None)) ;;
       logger DEBUG "Pod `{}` deleted" (ArgStr name) ;;
       ret PyNone)
      (fun e =>
         pod_found <- local ;;
         if pod_found : bool then
           logger WARNING "Could not delete pod `{}`" (ArgStr name) ;;
           raise (PolyaxonK8SError e)
         else
           logger DEBUG "Pod `{}` was not found" (ArgStr name) ;;
           ret PyNone)).

Definition delete_deployment (self : K8SManager) (name : string) : Method PyValue :=
  def false (
    try_except
      (_ <- api (read_namespaced_deployment name (namespace self)) ;;
       assign true ;;
       _ <- api (delete_namespaced_deployment name (namespace self)
                   (mkV1DeleteOptions (Some constants.K8S_API_VERSION_V1_BETA1)
                                      (Some "Foreground"))) ;;
       logger DEBUG "Deployment `{}` deleted" (ArgStr name) ;;
       ret PyNone)
      (fun e =>
         deployment_found <- local ;;
         if deployment_found : bool then
           logger WARNING "Could not delete deployment `{}`" (ArgStr name) ;;
           raise (PolyaxonK8SError e)
         else
           logger DEBUG "Deployment `{}` was not found" (ArgStr name) ;;
           ret PyNone)).

Definition create_or_update_volume (self : K8SManager) (name : string) (data : PyValue)
  : Method PyValue :=
  def false (
    try_except
      (_ <- api (read_persistent_volume name) ;;
       assign true ;;
       logger DEBUG "A Persistent volume with name `{}` was found" (ArgStr name) ;;
       _ <- api (patch_persistent_volume name data) ;;
       logger DEBUG "Persistent volume `{}` was patched" (ArgStr name) ;;
       ret PyNone)
      (fun e =>
         volume_found <- local ;;
         if volume_found : bool then raise (PolyaxonK8SError e)
         else
           _ <- api (create_persistent_volume data) ;;
           logger DEBUG "Persistent volume `{}` was created" (ArgStr name) ;;
           ret PyNone)).

Definition create_or_update_volume_claim (self : K8SManager) (name : string) (data : PyValue)
  : Method PyValue :=
  def false (
    try_except
      (_ <- api (read_namespaced_persistent_volume_claim name (namespace self)) ;;
       assign true ;;
       logger DEBUG "A volume claim with name `{}` was found" (ArgStr name) ;;
       _ <- api (patch_namespaced_persistent_volume_claim name (namespace self)
                   data) ;;
       logger DEBUG "Volume claim `{}` was patched" (ArgStr name) ;;
       ret PyNone)
      (fun e =>
         volume_claim_found <- local ;;
         if volume_claim_found : bool then raise (PolyaxonK8SError e)
         else
           _ <- api (create_namespaced_persistent_volume_claim (namespace self)
                       data) ;;
           logger DEBUG "Volume claim `{}` was created" (ArgStr name) ;;
           ret PyNone)).

Definition delete_volume (self : K8SManager) (name : string) : Method PyValue :=
  def false (
    try_except
      (_ <- api (read_persistent_volume name) ;;
       assign true ;;
       _ <- api (delete_persistent_volume name
                   (mkV1DeleteOptions (Some constants.K8S_API_VERSION_V1) None)) ;;
       logger DEBUG "Volume `{}` Deleted" (ArgStr name) ;;
       ret PyNone)
      (fun e =>
         volume_found <- local ;;
         if volume_found : bool then
           logger WARNING "Could not delete volume `{}`" (ArgStr name) ;;
           raise (PolyaxonK8SError e)
         else
           logger DEBUG "Volume `{}` was not found" (ArgStr name) ;;
           ret PyNone)).

Definition delete_volume_claim (self : K8SManager) (name : string) : Method PyValue :=
  def false (
    try_except
      (_ <- api (read_namespaced_persistent_volume_claim name (namespace self)) ;;
       assign true ;;
       _ <- api (delete_namespaced_persistent_volume_claim name (namespace self)
                   (mkV1DeleteOptions (Some constants.K8S_API_VERSION_V1) None)) ;;
       logger DEBUG "Volume claim `{}` Deleted" (ArgStr name) ;;
       ret PyNone)
      (fun e =>
         volume_claim_found <- local ;;
         if volume_claim_found : bool then
           logger WARNING "Could not delete volume claim `{}`" (ArgStr name) ;;
           raise (PolyaxonK8SError e)
         else
           logger DEBUG "Volume claim `{}` was not found" (ArgStr name) ;;
           ret PyNone)).

(** ** The public operations, by family *)

(** The resource kinds that have an ensure-present / ensure-absent pair. *)
Inductive Kind : Type :=
| ConfigMap | Service | Pod | Deployment | PersistentVolume | PersistentVolumeClaim.

(** A call of one of the six [create_or_update_*] methods, with exactly the
    parameters the method has: only the config map one takes [reraise]. *)
Inductive EnsurePresent : Type :=
| CreateOrUpdateConfigMap (name : string) (body : PyValue) (reraise : bool)
| CreateOrUpdateService (name : string) (data : PyValue)
| CreateOrUpdatePod (name : string) (data : PyValue)
| CreateOrUpdateDeployment (name : string) (data : PyValue)
| CreateOrUpdateVolume (name : string) (data : PyValue)
| CreateOrUpdateVolumeClaim (name : string) (data : PyValue).

(** A call of one of the six [delete_*] methods; again only the config map
    one takes [reraise]. *)
Inductive EnsureAbsent : Type :=
| DeleteConfigMap (name : string) (reraise : bool)
| DeleteService (name : string)
| DeletePod (name : string)
| DeleteDeployment (name : string)
| DeleteVolume (name : string)
| DeleteVolumeClaim (name : string).

Definition ensure_present (self : K8SManager) (op : EnsurePresent) : Method PyValue :=
  match op with
  | CreateOrUpdateConfigMap name body reraise =>
      create_or_update_config_map self name body reraise
  | CreateOrUpdateService name data => create_or_update_service self name data
  | CreateOrUpdatePod name data => create_or_update_pod self name data
  | CreateOrUpdateDeployment name data => create_or_update_deployment self name data
  | CreateOrUpdateVolume name data => create_or_update_volume self name data
  | CreateOrUpdateVolumeClaim name data =>
      create_or_update_volume_claim self name data
  end.

Definition ensure_absent (self : K8SManager) (op : EnsureAbsent) : Method PyValue :=
  match op with
  | DeleteConfigMap name reraise => delete_config_map self name reraise
  | DeleteService name => delete_service self name
  | DeletePod name => delete_pod self name
  | DeleteDeployment name => delete_deployment self name
  | DeleteVolume name => delete_volume self name
  | DeleteVolumeClaim name => delete_volume_claim self name
  end.

Definition absent_kind (op : EnsureAbsent) : Kind :=
  match op with
  | DeleteConfigMap _ _ => ConfigMap
  | DeleteService _ => Service
  | DeletePod _ => Pod
  | DeleteDeployment _ => Deployment
  | DeleteVolume _ => PersistentVolume
  | DeleteVolumeClaim _ => PersistentVolumeClaim
  end.

Definition absent_name (op : EnsureAbsent) : string :=
  match op with
  | DeleteConfigMap name _ | DeleteService name | DeletePod name
  | DeleteDeployment name | DeleteVolume name | DeleteVolumeClaim name => name
  end.

(** ** Reading a run: the vocabulary of the claims *)

Inductive Verb : Type := Version | List | Read | Patch | Create | Delete.

Definition verb (c : Call) : Verb :=
  match c with
  | get_code => Version
  | list_node => List
  | patch_node _ _ => Patch
  | read_namespaced_config_map _ _ | read_namespaced_service _ _
  | read_namespaced_pod _ _ | read_namespaced_deployment _ _
  | read_persistent_volume _ | read_namespaced_persistent_volume_claim _ _ => Read
  | patch_namespaced_config_map _ _ _ | patch_namespaced_service _ _ _
  | patch_namespaced_pod _ _ _ | patch_namespaced_deployment _ _ _
  | patch_persistent_volume _ _
  | patch_namespaced_persistent_volume_claim _ _ _ => Patch
  | create_namespaced_config_map _ _ | create_namespaced_service _ _
  | create_namespaced_pod _ _ | create_namespaced_deployment _ _
  | create_persistent_volume _
  | create_namespaced_persistent_volume_claim _ _ => Create
  | delete_namespaced_config_map _ _ _ | delete_namespaced_service _ _
  | delete_namespaced_pod _ _ _ | delete_namespaced_deployment _ _ _
  | delete_persistent_volume _ _
  | delete_namespaced_persistent_volume_claim _ _ _ => Delete
  end.

Definition is_read (c : Call) : bool :=
  match verb c with Read => true | _ => false end.
Definition is_create (c : Call) : bool :=
  match verb c with Create => true | _ => false end.
Definition is_patch (c : Call) : bool :=
  match verb c with Patch => true | _ => false end.
Definition is_delete (c : Call) : bool :=
  match verb c with Delete => true | _ => false end.

(** A call that changes the cluster. *)
Definition is_mutating (c : Call) : bool :=
  is_create c || is_patch c || is_delete c.

(** The delete-options payload a call carries, if it carries one. *)
Definition delete_options (c : Call) : option V1DeleteOptions :=
  match c with
  | delete_namespaced_config_map _ _ opts | delete_namespaced_pod _ _ opts
  | delete_namespaced_deployment _ _ opts | delete_persistent_volume _ opts
  | delete_namespaced_persistent_volume_claim _ _ opts => Some opts
  | _ => None
  end.

(** The API version of a kind: deployments are served by the extensions
    API, all other kinds by the core API. *)
Definition kind_api_version (k : Kind) : string :=
  match k with
  | Deployment => constants.K8S_API_VERSION_V1_BETA1
  | _ => constants.K8S_API_VERSION_V1
  end.

(** The read with which an operation starts. *)
Definition present_read (self : K8SManager) (op : EnsurePresent) : Call :=
  match op with
  | CreateOrUpdateConfigMap name _ _ =>
      read_namespaced_config_map name (namespace self)
  | CreateOrUpdateService name _ => read_namespaced_service name (namespace self)
  | CreateOrUpdatePod name _ => read_namespaced_pod name (namespace self)
  | CreateOrUpdateDeployment name _ =>
      read_namespaced_deployment name (namespace self)
  | CreateOrUpdateVolume name _ => read_persistent_volume name
  | CreateOrUpdateVolumeClaim name _ =>
      read_namespaced_persistent_volume_claim name (namespace self)
  end.

Definition absent_read (self : K8SManager) (op : EnsureAbsent) : Call :=
  match op with
  | DeleteConfigMap name _ => read_namespaced_config_map name (namespace self)
  | DeleteService name => read_namespaced_service name (namespace self)
  | DeletePod name => read_namespaced_pod name (namespace self)
  | DeleteDeployment name => read_namespaced_deployment name (namespace self)
  | DeleteVolume name => read_persistent_volume name
  | DeleteVolumeClaim name =>
      read_namespaced_persistent_volume_claim name (namespace self)
  end.

(** The write that follows a failed read, and the one that follows a
    successful read. *)
Definition present_create (self : K8SManager) (op : EnsurePresent) : Call :=
  match op with
  | CreateOrUpdateConfigMap _ body _ =>
      create_namespaced_config_map (namespace self) body
  | CreateOrUpdateService _ data => create_namespaced_service (namespace self) data
  | CreateOrUpdatePod _ data => create_namespaced_pod (namespace self) data
  | CreateOrUpdateDeployment _ data =>
      create_namespaced_deployment (namespace self) data
  | CreateOrUpdateVolume _ data => create_persistent_volume data
  | CreateOrUpdateVolumeClaim _ data =>
      create_namespaced_persistent_volume_claim (namespace self) data
  end.

Definition present_patch (self : K8SManager) (op : EnsurePresent) : Call :=
  match op with
  | CreateOrUpdateConfigMap name body _ =>
      patch_namespaced_config_map name (namespace self) body
  | CreateOrUpdateService name data =>
      patch_namespaced_service name (namespace self) data
  | CreateOrUpdatePod name data => patch_namespaced_pod name (namespace self) data
  | CreateOrUpdateDeployment name data =>
      patch_namespaced_deployment name (namespace self) data
  | CreateOrUpdateVolume name data => patch_persistent_volume name data
  | CreateOrUpdateVolumeClaim name data =>
      patch_namespaced_persistent_volume_claim name (namespace self) data
  end.

(** The delete that follows a successful read. *)
Definition absent_delete (self : K8SManager) (op : EnsureAbsent) : Call :=
  match op with
  | DeleteConfigMap name _ =>
      delete_namespaced_config_map name (namespace self)
        (mkV1DeleteOptions (Some constants.K8S_API_VERSION_V1) None)
  | DeleteService name => delete_namespaced_service name (namespace self)
  | DeletePod name =>
      delete_namespaced_pod name (namespace self)
        (mkV1DeleteOptions (Some constants.K8S_API_VERSION_V1) None)
  | DeleteDeployment name =>
      delete_namespaced_deployment name (namespace self)
        (mkV1DeleteOptions (Some constants.K8S_API_VERSION_V1_BETA1)
                           (Some "Foreground"))
  | DeleteVolume name =>
      delete_persistent_volume name
        (mkV1DeleteOptions (Some constants.K8S_API_VERSION_V1) None)
  | DeleteVolumeClaim name =>
      delete_namespaced_persistent_volume_claim name (namespace self)
        (mkV1DeleteOptions (Some constants.K8S_API_VERSION_V1) None)
  end.

(** The debug records with which the delete methods report their two
    successful ends. *)
Definition deleted_template (k : Kind) : string :=
  match k with
  | ConfigMap => "Config map `{}` Deleted"
  | Service => "Service `{}` deleted"
  | Pod => "Pod `{}` deleted"
  | Deployment => "Deployment `{}` deleted"
  | PersistentVolume => "Volume `{}` Deleted"
  | PersistentVolumeClaim => "Volume claim `{}` Deleted"
  end.

Definition not_found_template (k : Kind) : string :=
  match k with
  | ConfigMap => "Config map `{}` was not found"
  | Service => "Service `{}` was not found"
  | Pod => "Pod `{}` was not found"
  | Deployment => "Deployment `{}` was not found"
  | PersistentVolume => "Volume `{}` was not found"
  | PersistentVolumeClaim => "Volume claim `{}` was not found"
  end.

(** The Error Classifier of the design (a failure means not-found when its
    status is 404).  The manager has no such predicate: none of its
    handlers looks at the exception it caught. *)
Definition isNotFound (e : ApiException) : bool := Z.eqb (status e) 404.

(** The calls a run issued and the records it logged: what the world
    gained between [w] and [w']. *)
Definition issued (w w' : World) : list Call :=
  skipn (length (history w)) (history w').

Definition logged (w w' : World) : list LogRecord :=
  skipn (length (log w)) (log w').

(** The history against which the second call of a run is answered. *)
Definition after (w : World) (c : Call) : list Call := (history w ++ [c])%list.

(** ** Sample clusters and calls *)

Definition manager : K8SManager := mkK8SManager "default".

Definition forbidden : ApiException := mkApiException 403 "Forbidden".
Definition not_found : ApiException := mkApiException 404 "Not Found".
Definition conflict : ApiException := mkApiException 409 "Conflict".

Definition no_version : VersionInfo := mkVersionInfo [].
Definition no_nodes : V1NodeList := mkV1NodeList [].

(** A cluster on which every call succeeds. *)
Definition healthy : Cluster :=
  fun _ c =>
    match c return Response (ret_type c) with
    | get_code => Returns no_version
    | list_node => Returns no_nodes
    | _ => Returns PyNone
    end.

(** A cluster that fails the calls of some verbs, each with the exception
    [f] gives for the verb, and answers the others as [healthy] does. *)
Definition failing (f : Verb -> option ApiException) : Cluster :=
  fun h c =>
    match f (verb c) with
    | Some e => Raises e
    | None => healthy h c
    end.

(** Every read raises [e]; every other call succeeds. *)
Definition unreadable (e : ApiException) : Cluster :=
  failing (fun v => match v with Read => Some e | _ => None end).

(** Reads succeed and every delete raises [e]. *)
Definition undeletable (e : ApiException) : Cluster :=
  failing (fun v => match v with Delete => Some e | _ => None end).

(** Every read raises [e1] and every create raises [e2]. *)
Definition uncreatable (e1 e2 : ApiException) : Cluster :=
  failing (fun v => match v with Read => Some e1 | Create => Some e2 | _ => None end).

(** The client cannot reach the server: every call raises [x], which is
    not an [ApiException]. *)
Definition max_retry : OtherException :=
  mkOtherException "urllib3.exceptions.MaxRetryError" "Max retries exceeded".

Definition offline (x : OtherException) : Cluster := fun _ _ => RaisesOther x.

Definition sample_body : PyValue := PyDict [("data", PyDict [("k", PyStr "v")])].


(** The exception of a failed call as it reaches the caller when nothing
    catches it. *)
Definition uncaught (f : Failure) : Exn :=
  match f with
  | ApiFailure e => RaisedApiException e
  | OtherFailure x => RaisedOther x
  end.

(** ** The rest of the vocabulary: names, namespaces, log texts *)

Definition present_kind (op : EnsurePresent) : Kind :=
  match op with
  | CreateOrUpdateConfigMap _ _ _ => ConfigMap
  | CreateOrUpdateService _ _ => Service
  | CreateOrUpdatePod _ _ => Pod
  | CreateOrUpdateDeployment _ _ => Deployment
  | CreateOrUpdateVolume _ _ => PersistentVolume
  | CreateOrUpdateVolumeClaim _ _ => PersistentVolumeClaim
  end.

Definition present_name (op : EnsurePresent) : string :=
  match op with
  | CreateOrUpdateConfigMap name _ _ | CreateOrUpdateService name _
  | CreateOrUpdatePod name _ | CreateOrUpdateDeployment name _
  | CreateOrUpdateVolume name _ | CreateOrUpdateVolumeClaim name _ => name
  end.

Definition present_body (op : EnsurePresent) : PyValue :=
  match op with
  | CreateOrUpdateConfigMap _ body _ => body
  | CreateOrUpdateService _ data | CreateOrUpdatePod _ data
  | CreateOrUpdateDeployment _ data | CreateOrUpdateVolume _ data
  | CreateOrUpdateVolumeClaim _ data => data
  end.

(** The namespace argument of a call, for the calls that have one. *)
Definition call_namespace (c : Call) : option string :=
  match c with
  | read_namespaced_config_map _ ns | patch_namespaced_config_map _ ns _
  | create_namespaced_config_map ns _ | delete_namespaced_config_map _ ns _
  | read_namespaced_service _ ns | patch_namespaced_service _ ns _
  | create_namespaced_service ns _ | delete_namespaced_service _ ns
  | read_namespaced_pod _ ns | patch_namespaced_pod _ ns _
  | create_namespaced_pod ns _ | delete_namespaced_pod _ ns _
  | read_namespaced_deployment _ ns | patch_namespaced_deployment _ ns _
  | create_namespaced_deployment ns _ | delete_namespaced_deployment _ ns _
  | read_namespaced_persistent_volume_claim _ ns
  | patch_namespaced_persistent_volume_claim _ ns _
  | create_namespaced_persistent_volume_claim ns _
  | delete_namespaced_persistent_volume_claim _ ns _ => Some ns
  | _ => None
  end.

(** The name argument of a call, for the calls that have one: the create
    calls have none. *)
Definition call_name (c : Call) : option string :=
  match c with
  | patch_node name _
  | read_namespaced_config_map name _ | patch_namespaced_config_map name _ _
  | delete_namespaced_config_map name _ _
  | read_namespaced_service name _ | patch_namespaced_service name _ _
  | delete_namespaced_service name _
  | read_namespaced_pod name _ | patch_namespaced_pod name _ _
  | delete_namespaced_pod name _ _
  | read_namespaced_deployment name _ | patch_namespaced_deployment name _ _
  | delete_namespaced_deployment name _ _
  | read_persistent_volume name | patch_persistent_volume name _
  | delete_persistent_volume name _
  | read_namespaced_persistent_volume_claim name _
  | patch_namespaced_persistent_volume_claim name _ _
  | delete_namespaced_persistent_volume_claim name _ _ => Some name
  | _ => None
  end.

(** The body argument of a call, for the calls that have one. *)
Definition call_body (c : Call) : option PyValue :=
  match c with
  | patch_node _ body
  | patch_namespaced_config_map _ _ body | create_namespaced_config_map _ body
  | patch_namespaced_service _ _ body | create_namespaced_service _ body
  | patch_namespaced_pod _ _ body | create_namespaced_pod _ body
  | patch_namespaced_deployment _ _ body | create_namespaced_deployment _ body
  | patch_persistent_volume _ body | create_persistent_volume body
  | patch_namespaced_persistent_volume_claim _ _ body
  | create_namespaced_persistent_volume_claim _ body => Some body
  | _ => None
  end.

(** The level at which a kind's create-or-update method reports its
    progress: the deployment one uses [logger.info], the others
    [logger.debug]. *)
Definition progress_level (k : Kind) : Level :=
  match k with
  | Deployment => INFO
  | _ => DEBUG
  end.

Definition found_template (k : Kind) : string :=
  match k with
  | ConfigMap => "A config map with name `{}` was found"
  | Service => "A service with name `{}` was found"
  | Pod => "A pod with name `{}` was found"
  | Deployment => "A deployment with name `{}` was found"
  | PersistentVolume => "A Persistent volume with name `{}` was found"
  | PersistentVolumeClaim => "A volume claim with name `{}` was found"
  end.

Definition patched_template (k : Kind) : string :=
  match k with
  | ConfigMap => "Config map `{}` was patched"
  | Service => "Service `{}` was patched"
  | Pod => "Pod `{}` was patched"
  | Deployment => "Deployment `{}` was patched"
  | PersistentVolume => "Persistent volume `{}` was patched"
  | PersistentVolumeClaim => "Volume claim `{}` was patched"
  end.

Definition created_template (k : Kind) : string :=
  match k with
  | ConfigMap => "Config map `{}` was created"
  | Service => "Service `{}` was created"
  | Pod => "Pod `{}` was created"
  | Deployment => "Deployment `{}` was created"
  | PersistentVolume => "Persistent volume `{}` was created"
  | PersistentVolumeClaim => "Volume claim `{}` was created"
  end.

Definition could_not_delete_template (k : Kind) : string :=
  match k with
  | ConfigMap => "Could not delete config map `{}`"
  | Service => "Could not delete service `{}`"
  | Pod => "Could not delete pod `{}`"
  | Deployment => "Could not delete deployment `{}`"
  | PersistentVolume => "Could not delete volume `{}`"
  | PersistentVolumeClaim => "Could not delete volume claim `{}`"
  end.

(** ** All public methods *)

(** A call of one of the three methods that do not reconcile. *)
Inductive Accessor : Type :=
| GetVersion (reraise : bool)
| GetNodeItems (reraise : bool)
| UpdateNodeLabels (node : string) (labels : PyValue) (reraise : bool).

Definition access (self : K8SManager) (a : Accessor) : Method PyValue :=
  match a with
  | GetVersion reraise => get_version self reraise
  | GetNodeItems reraise => get_node_items self reraise
  | UpdateNodeLabels node labels reraise =>
      update_node_labels self node labels reraise
  end.

Inductive Operation : Type :=
| Access (a : Accessor)
| Present (op : EnsurePresent)
| Absent (op : EnsureAbsent).

Definition invoke (self : K8SManager) (o : Operation) : Method PyValue :=
  match o with
  | Access a => access self a
  | Present op => ensure_present self op
  | Absent op => ensure_absent self op
  end.

(** Running one method after another: the second starts in the world the
    first left, whether the first returned or raised and was caught by the
    caller. *)
Definition then_run {A B : Type} (m1 : Method A) (m2 : Method B)
  : Cluster -> World -> World * (Result A * Result B) :=
  fun cl w =>
    let (w1, r1) := m1 cl w in
    let (w2, r2) := m2 cl w1 in
    (w2, (r1, r2)).

(** ** K8SManager.__init__ *)

(** [kubernetes.config]'s two loaders.  They configure the default client
    from the environment and raise when they find nothing to load. *)
Inductive ConfigLoader : Type := load_incluster_config | load_kube_config.

(** A [k8s_config] object, and [client.api_client.ApiClient(config=...)]. *)
Record Configuration : Type := mkConfiguration { host : string }.
Record ApiClient : Type := mkApiClient { config : Configuration }.

(** The library calls of the constructor, in the order of the source: a
    loader or the [ApiClient] of the given configuration, then the three
    API classes. *)
Inductive Step : Type :=
| Load (loader : ConfigLoader)
| NewApiClient (cfg : Configuration)
| NewCoreV1Api
| NewExtensionsV1beta1Api
| NewVersionApi.

(** The environment of a constructor call: what a library call raises, if
    it raises.  The constructor catches nothing. *)
Definition ConfigEnv : Type := Step -> option string.

(** The three API objects, each built on [api_client] ([None] stands for
    the default client), and the manager's namespace. *)
Record Instance : Type := mkInstance {
  k8s_api : option ApiClient;
  k8s_beta_api : option ApiClient;
  k8s_version_api : option ApiClient;
  this : K8SManager
}.

(** A constructor call gives the object, with the loaders it ran, or ends
    with what the library call [step] raised. *)
Inductive Construction : Type :=
| Constructed (loaded : list ConfigLoader) (obj : Instance)
| ConstructionRaised (step : Step) (msg : string).

(** One library call of the constructor, then the rest of it. *)
Definition attempt (env : ConfigEnv) (step : Step) (rest : Construction)
  : Construction :=
  match env step with
  | Some msg => ConstructionRaised step msg
  | None => rest
  end.

(** [not k8s_config]: [None] is false, a configuration object is true. *)
Definition __init__ (env : ConfigEnv) (k8s_config : option Configuration)
    (namespace : string) (in_cluster : bool) : Construction :=
  let finish loaded api_client :=
    attempt env NewCoreV1Api (
    attempt env NewExtensionsV1beta1Api (
    attempt env NewVersionApi (
    Constructed loaded
      (mkInstance api_client api_client api_client (mkK8SManager namespace))))) in
  match k8s_config with
  | None =>
      let loader := if in_cluster then load_incluster_config else load_kube_config in
      attempt env (Load loader) (finish [loader] None)
  | Some cfg =>
      attempt env (NewApiClient cfg) (finish [] (Some (mkApiClient cfg)))
  end.

(** Whether the calls of an operation are namespaced: the node and version
    calls and the persistent volume calls are not. *)
Definition namespaced (o : Operation) : bool :=
  match o with
  | Access _ => false
  | Present op =>
      match present_kind op with PersistentVolume => false | _ => true end
  | Absent op =>
      match absent_kind op with PersistentVolume => false | _ => true end
  end.

(** The [reraise] argument of a call of a method; the methods without the
    parameter have none. *)
Definition reraise_flag (o : Operation) : option bool :=
  match o with
  | Access (GetVersion reraise) | Access (GetNodeItems reraise)
  | Access (UpdateNodeLabels _ _ reraise)
  | Present (CreateOrUpdateConfigMap _ _ reraise)
  | Absent (DeleteConfigMap _ reraise) => Some reraise
  | _ => None
  end.

(** A cluster that remembers: a read raises 404 unless the last create or
    delete before it was a create; before any of them the resource is
    there or not as [initially] says. *)
Definition tracking (initially : bool) : Cluster :=
  fun h c =>
    let there :=
      match filter (fun c => is_create c || is_delete c) (rev h) with
      | c' :: _ => is_create c'
      | [] => initially
      end in
    if is_read c && negb there then Raises not_found else healthy h c.

(** How a call was answered, leaving out the value or the exception:
    [None] for a value, else the class of the exception raised.  And
    whether a result is a return. *)
Inductive ExceptionClass : Type := ApiExceptionClass | OtherClass.

Definition fails {A : Type} (r : Response A) : option ExceptionClass :=
  match r with
  | Returns _ => None
  | Raises _ => Some ApiExceptionClass
  | RaisesOther _ => Some OtherClass
  end.

Definition returned {A : Type} (r : Result A) : bool :=
  match r with Returned _ => true | Raised _ => false end.

(** Two clusters that fail the same calls with exceptions of the same
    class, of whatever status, reason or message. *)
Definition same_failures (cl1 cl2 : Cluster) : Prop :=
  forall (h : list Call) (c : Call), fails (cl1 h c) = fails (cl2 h c).

(** The one call of an accessor. *)
Definition access_call (a : Accessor) : Call :=
  match a with
  | GetVersion _ => get_code
  | GetNodeItems _ => list_node
  | UpdateNodeLabels node labels _ =>
      patch_node node (PyDict [("metadata", PyDict [("labels", labels)])])
  end.

(** The resource name a reconciling call was given. *)
Definition target_name (o : Operation) : option string :=
  match o with
  | Access (UpdateNodeLabels node _ _) => Some node
  | Access _ => None
  | Present op => Some (present_name op)
  | Absent op => Some (absent_name op)
  end.

(** * Theorems *)

Arguments issued : simpl never.
Arguments logged : simpl never.

Lemma issued_app (h : list Call) (l l' : list LogRecord) (t : list Call) :
  issued (mkWorld h l) (mkWorld (h ++ t) l') = t.
Proof.
  unfold issued; cbn.
  induction h as [|c h IH]; [reflexivity | exact IH].
Qed.

Lemma issued_app1 (h : list Call) (l l' : list LogRecord) (c1 : Call) :
  issued (mkWorld h l) (mkWorld (h ++ [c1]) l') = [c1].
Proof. apply issued_app. Qed.

Lemma issued_app2 (h : list Call) (l l' : list LogRecord) (c1 c2 : Call) :
  issued (mkWorld h l) (mkWorld ((h ++ [c1]) ++ [c2]) l') = [c1; c2].
Proof. rewrite <- app_assoc. apply issued_app. Qed.

Lemma logged_app (h h' : list Call) (l t : list LogRecord) :
  logged (mkWorld h l) (mkWorld h' (l ++ t)) = t.
Proof.
  unfold logged; cbn.
  induction l as [|c l IH]; [reflexivity | exact IH].
Qed.

Lemma logged_nil (h h' : list Call) (l : list LogRecord) :
  logged (mkWorld h l) (mkWorld h' l) = [].
Proof. rewrite <- (app_nil_r l) at 2. apply logged_app. Qed.

Lemma logged_app2 (h h' : list Call) (l : list LogRecord) (r1 r2 : LogRecord) :
  logged (mkWorld h l) (mkWorld h' ((l ++ [r1]) ++ [r2])) = [r1; r2].
Proof. rewrite <- app_assoc. apply logged_app. Qed.

(** Unfolding a method down to the answers of the cluster. *)
Ltac unfold_method :=
  unfold ensure_present, ensure_absent,
    get_version, get_node_items, update_node_labels,
    create_or_update_config_map, create_or_update_service, create_or_update_pod,
    create_or_update_deployment, create_or_update_volume,
    create_or_update_volume_claim,
    delete_config_map, delete_service, delete_pod, delete_deployment,
    delete_volume, delete_volume_claim,
    def, try_except, bind, api, assign, local, logger, ret, raise, after;
  cbn in *.

(** Case analysis on the next answer of the cluster [cl]. *)
Ltac next_answer cl :=
  match goal with
  | |- context [match cl ?h ?c with _ => _ end] =>
      destruct (cl h c); cbn in *; try discriminate
  end.

Ltac tidy :=
  rewrite ?issued_app2, ?issued_app1, ?logged_app2, ?logged_app, ?logged_nil.

(** ** The two ordinary runs *)

(** On a cluster where the config map is missing (the read raises 404) the
    manager reads, then creates in the manager's namespace with the body it
    was given. *)
Example create_or_update_config_map_absent :
  create_or_update_config_map manager "app-config" sample_body false
    (unreadable not_found) empty_world
  = (mkWorld [read_namespaced_config_map "app-config" "default";
              create_namespaced_config_map "default" sample_body]
             [mkLogRecord DEBUG "Config map `{}` was created" (ArgStr "app-config")],
     Returned PyNone).
Proof. reflexivity. Qed.

(** On a cluster that has it, the manager reads, then patches. *)
Example create_or_update_config_map_present :
  create_or_update_config_map manager "app-config" sample_body false
    healthy empty_world
  = (mkWorld [read_namespaced_config_map "app-config" "default";
              patch_namespaced_config_map "app-config" "default" sample_body]
             [mkLogRecord DEBUG "A config map with name `{}` was found"
                (ArgStr "app-config");
              mkLogRecord DEBUG "Config map `{}` was patched" (ArgStr "app-config")],
     Returned PyNone).
Proof. reflexivity. Qed.

(** ** Ensure-present: a failed read *)

(** C1, as the manager has it: an ensure-present operation whose initial
    read raises an [ApiException] -- any, whatever its status, for no
    handler looks at it -- goes on to issue the create call.  The run
    issues exactly the read and then the create, so no patch and no delete,
    and when the create succeeds the operation returns [None]: the failed
    read is not reported. *)
Theorem C1_any_read_failure_leads_to_create
    (self : K8SManager) (op : EnsurePresent) (cl : Cluster) (w : World)
    (e : ApiException) :
  failure (cl (history w) (present_read self op)) = Some (ApiFailure e) ->
  let w' := fst (ensure_present self op cl w) in
  issued w w' = [present_read self op; present_create self op] /\
  map verb (issued w w') = [Read; Create] /\
  (failure (cl (after w (present_read self op)) (present_create self op)) = None ->
   snd (ensure_present self op cl w) = Returned PyNone).
Proof.
  destruct w as [h l]; destruct op; unfold_method; intros Hr.
  all: next_answer cl; try next_answer cl; tidy.
  all: repeat split; try reflexivity; try discriminate.
Qed.

Lemma C1_any_read_failure_leads_to_create_witness :
  failure (unreadable forbidden (history empty_world)
             (present_read manager (CreateOrUpdateService "web" sample_body)))
    = Some (ApiFailure forbidden) /\
  let op := CreateOrUpdateService "web" sample_body in
  let w' := fst (ensure_present manager op (unreadable forbidden) empty_world) in
  issued empty_world w' = [present_read manager op; present_create manager op] /\
  map verb (issued empty_world w') = [Read; Create] /\
  (failure (unreadable forbidden (after empty_world (present_read manager op))
              (present_create manager op)) = None ->
   snd (ensure_present manager op (unreadable forbidden) empty_world)
     = Returned PyNone).
Proof.
  split; [reflexivity|].
  apply (C1_any_read_failure_leads_to_create manager
           (CreateOrUpdateService "web" sample_body) (unreadable forbidden)
           empty_world forbidden).
  reflexivity.
Defined.

(** C1 as written fails: the read of service [web] is refused with 403
    Forbidden, which the classifier of the design does not take for
    not-found, and [create_or_update_service] still issues the create call
    and returns [None] instead of raising. *)
Lemma C1_counterexample :
  let cl := unreadable forbidden in
  let run := create_or_update_service manager "web" sample_body cl empty_world in
  failure (cl [] (read_namespaced_service "web" "default"))
      = Some (ApiFailure forbidden) /\
  isNotFound forbidden = false /\
  issued empty_world (fst run)
    = [read_namespaced_service "web" "default";
       create_namespaced_service "default" sample_body] /\
  existsb is_create (issued empty_world (fst run)) = true /\
  snd run = Returned PyNone.
Proof. repeat split. Qed.

(** ** Ensure-absent: a failed read *)

(** C2, as the manager has it: an ensure-absent operation whose initial
    read raises an [ApiException] -- any, whatever its status -- takes the
    resource for absent: it issues no other call, logs the kind's
    "was not found" debug record and returns [None] to its caller without
    raising. *)
Theorem C2_any_read_failure_counts_as_absent
    (self : K8SManager) (op : EnsureAbsent) (cl : Cluster) (w : World)
    (e : ApiException) :
  failure (cl (history w) (absent_read self op)) = Some (ApiFailure e) ->
  let w' := fst (ensure_absent self op cl w) in
  issued w w' = [absent_read self op] /\
  logged w w'
    = [mkLogRecord DEBUG (not_found_template (absent_kind op))
         (ArgStr (absent_name op))] /\
  snd (ensure_absent self op cl w) = Returned PyNone.
Proof.
  destruct w as [h l]; destruct op; unfold_method; intros Hr.
  all: next_answer cl; tidy.
  all: repeat split.
Qed.

Lemma C2_any_read_failure_counts_as_absent_witness :
  failure (unreadable forbidden (history empty_world)
             (absent_read manager (DeleteDeployment "worker")))
    = Some (ApiFailure forbidden) /\
  let op := DeleteDeployment "worker" in
  let w' := fst (ensure_absent manager op (unreadable forbidden) empty_world) in
  issued empty_world w' = [absent_read manager op] /\
  logged empty_world w'
    = [mkLogRecord DEBUG (not_found_template (absent_kind op))
         (ArgStr (absent_name op))] /\
  snd (ensure_absent manager op (unreadable forbidden) empty_world)
    = Returned PyNone.
Proof.
  split; [reflexivity|].
  apply (C2_any_read_failure_counts_as_absent manager (DeleteDeployment "worker")
           (unreadable forbidden) empty_world forbidden).
  reflexivity.
Defined.

(** C2 as written fails: the read of pod [web] is refused with 403
    Forbidden, not a not-found, and [delete_pod] reports the pod as not
    found and returns [None]; nothing is raised. *)
Lemma C2_counterexample :
  let cl := unreadable forbidden in
  let run := delete_pod manager "web" cl empty_world in
  failure (cl [] (read_namespaced_pod "web" "default")) = Some (ApiFailure forbidden) /\
  isNotFound forbidden = false /\
  snd run = Returned PyNone /\
  logged empty_world (fst run)
    = [mkLogRecord DEBUG "Pod `{}` was not found" (ArgStr "web")].
Proof. repeat split. Qed.

(** ** Ensure-present: one write at most *)

(** C3: whatever the cluster answers, one execution of an ensure-present
    operation issues the read followed by either the patch or the create
    (or the read alone, when the read raises an exception that is not an
    [ApiException] and so ends the method): at most one mutating call, and
    never a create together with a patch. *)
Theorem C3_at_most_one_mutating_call
    (self : K8SManager) (op : EnsurePresent) (cl : Cluster) (w : World) :
  let calls := issued w (fst (ensure_present self op cl w)) in
  (calls = [present_read self op; present_patch self op] \/
   calls = [present_read self op; present_create self op] \/
   calls = [present_read self op]) /\
  length (filter is_mutating calls) <= 1 /\
  existsb is_create calls && existsb is_patch calls = false.
Proof.
  destruct w as [h l]; destruct op; unfold_method.
  all: next_answer cl; try next_answer cl; try destruct reraise; cbn; tidy.
  all: cbn; repeat split; auto.
Qed.

(** ** Ensure-absent: the delete request *)

(** C4, as the manager has it: when the read succeeds, an ensure-absent
    operation issues one delete.  For config maps, pods, volumes and volume
    claims it carries delete options with the API version [v1] and no
    propagation policy; for deployments, delete options with the API
    version [extensions/v1beta1] and the propagation policy [Foreground];
    for services the delete is called with the name and the namespace only
    and carries no delete options. *)
Theorem C4_delete_options_by_kind
    (self : K8SManager) (op : EnsureAbsent) (cl : Cluster) (w : World) :
  failure (cl (history w) (absent_read self op)) = None ->
  let deletes := filter is_delete (issued w (fst (ensure_absent self op cl w))) in
  map delete_options deletes =
    match absent_kind op with
    | Service => [None]
    | Deployment =>
        [Some (mkV1DeleteOptions (Some (kind_api_version Deployment))
                 (Some "Foreground"))]
    | k => [Some (mkV1DeleteOptions (Some (kind_api_version k)) None)]
    end.
Proof.
  destruct w as [h l]; destruct op; unfold_method; intros Hr.
  all: next_answer cl; try next_answer cl; try destruct reraise; cbn; tidy.
  all: reflexivity.
Qed.

Lemma C4_delete_options_by_kind_witness :
  failure (healthy (history empty_world)
             (absent_read manager (DeleteDeployment "worker"))) = None /\
  map delete_options
    (filter is_delete
       (issued empty_world
          (fst (ensure_absent manager (DeleteDeployment "worker") healthy
                  empty_world))))
    = [Some (mkV1DeleteOptions (Some "extensions/v1beta1") (Some "Foreground"))].
Proof.
  split; [reflexivity|].
  apply (C4_delete_options_by_kind manager (DeleteDeployment "worker") healthy
           empty_world).
  reflexivity.
Defined.

(** C4 as written fails for services: the read of service [web] succeeds
    and the delete that [delete_service] then issues carries no
    delete-options payload, hence no API version. *)
Lemma C4_counterexample :
  let run := delete_service manager "web" healthy empty_world in
  failure (healthy [] (read_namespaced_service "web" "default")) = None /\
  filter is_delete (issued empty_world (fst run))
    = [delete_namespaced_service "web" "default"] /\
  map delete_options (filter is_delete (issued empty_world (fst run))) = [None].
Proof. repeat split. Qed.

(** ** Ensure-absent: a failed delete *)






(** ** The errors a caller sees *)

(** In the same method the patch that follows a successful read is
    wrapped when it fails: the caller gets [PolyaxonK8SError]. *)
Lemma patch_failure_is_wrapped :
  let cl := failing (fun v => match v with Patch => Some conflict | _ => None end) in
  snd (create_or_update_service manager "web" sample_body cl empty_world)
    = Raised (PolyaxonK8SError conflict).
Proof. reflexivity. Qed.

(** No ensure-absent operation lets an [ApiException] through. *)
Lemma ensure_absent_never_leaks
    (self : K8SManager) (op : EnsureAbsent) (cl : Cluster) (w : World)
    (e : ApiException) :
  snd (ensure_absent self op cl w) <> Raised (RaisedApiException e).
Proof.
  destruct w as [h l]; destruct op; unfold_method.
  all: next_answer cl; try next_answer cl; try destruct reraise; cbn.
  all: discriminate.
Qed.

(** An ensure-present operation lets an [ApiException] through only when
    its read failed and it is the exception of the create that followed. *)
Lemma ensure_present_leaks_create_failures_only
    (self : K8SManager) (op : EnsurePresent) (cl : Cluster) (w : World)
    (e : ApiException) :
  snd (ensure_present self op cl w) = Raised (RaisedApiException e) ->
  failure (cl (history w) (present_read self op)) <> None /\
  failure (cl (after w (present_read self op)) (present_create self op))
      = Some (ApiFailure e).
Proof.
  destruct w as [h l]; destruct op; unfold_method.
  all: next_answer cl; try next_answer cl; try destruct reraise; cbn.
  all: intros H; try discriminate H.
  all: split; [discriminate | congruence].
Qed.

(** C6 fails on the create path: [create_or_update_service] on a cluster
    where the read of service [web] raises 404 Not Found and the create
    raises 409 Conflict.  The create is issued inside the handler, where
    nothing catches its exception, so the caller gets the client's
    [ApiException] itself and not a [PolyaxonK8SError] wrapping it. *)
Theorem C6_create_failure_reaches_caller_unwrapped :
  let cl := uncreatable not_found conflict in
  let run := create_or_update_service manager "web" sample_body cl empty_world in
  issued empty_world (fst run)
    = [read_namespaced_service "web" "default";
       create_namespaced_service "default" sample_body] /\
  snd run = Raised (RaisedApiException conflict) /\
  snd run <> Raised (PolyaxonK8SError conflict).
Proof. repeat split. discriminate. Qed.

(** ** Ensure-absent on an existing resource *)

(** C7: when the read of an ensure-absent operation succeeds, the run
    issues exactly one delete call, which for the deployment kind carries
    the propagation policy [Foreground]; when that delete succeeds too, the
    operation reports the deletion -- its only log record is the kind's
    "deleted" debug record -- and returns [None] without raising. *)
Theorem C7_existing_resource_is_deleted
    (self : K8SManager) (op : EnsureAbsent) (cl : Cluster) (w : World) :
  failure (cl (history w) (absent_read self op)) = None ->
  let w' := fst (ensure_absent self op cl w) in
  issued w w' = [absent_read self op; absent_delete self op] /\
  length (filter is_delete (issued w w')) = 1 /\
  (absent_kind op = Deployment ->
   map delete_options (filter is_delete (issued w w'))
     = [Some (mkV1DeleteOptions (Some constants.K8S_API_VERSION_V1_BETA1)
                (Some "Foreground"))]) /\
  (failure (cl (after w (absent_read self op)) (absent_delete self op)) = None ->
   logged w w'
     = [mkLogRecord DEBUG (deleted_template (absent_kind op))
          (ArgStr (absent_name op))] /\
   snd (ensure_absent self op cl w) = Returned PyNone).
Proof.
  destruct w as [h l]; destruct op; unfold_method; intros Hr.
  all: next_answer cl; try next_answer cl; try destruct reraise; cbn; tidy.
  all: repeat split; try reflexivity; try discriminate.
Qed.

Lemma C7_existing_resource_is_deleted_witness :
  let op := DeleteDeployment "worker" in
  let w' := fst (ensure_absent manager op healthy empty_world) in
  failure (healthy (history empty_world) (absent_read manager op)) = None /\
  failure (healthy (after empty_world (absent_read manager op))
             (absent_delete manager op)) = None /\
  length (filter is_delete (issued empty_world w')) = 1 /\
  map delete_options (filter is_delete (issued empty_world w'))
    = [Some (mkV1DeleteOptions (Some "extensions/v1beta1") (Some "Foreground"))] /\
  logged empty_world w'
    = [mkLogRecord DEBUG "Deployment `{}` deleted" (ArgStr "worker")] /\
  snd (ensure_absent manager op healthy empty_world) = Returned PyNone.
Proof.
  destruct (C7_existing_resource_is_deleted manager (DeleteDeployment "worker")
              healthy empty_world eq_refl) as (_ & Hone & Hfg & Hdel).
  split; [reflexivity|].
  split; [reflexivity|].
  split; [exact Hone|].
  split; [exact (Hfg eq_refl)|].
  exact (Hdel eq_refl).
Defined.

(** ** Ensure-present: a failed create *)

(** C8: in every ensure-present operation, when the read fails (with the
    [ApiException] that opens the create branch) and the create that
    follows fails too, the create's exception, of whatever class,
    propagates to the caller as it is; [create_or_update_config_map], the
    one method with a [reraise] flag, does so for both values of the
    flag. *)
Theorem C8_create_failure_always_propagates
    (self : K8SManager) (op : EnsurePresent) (cl : Cluster) (w : World)
    (e1 : ApiException) (f : Failure) :
  failure (cl (history w) (present_read self op)) = Some (ApiFailure e1) ->
  failure (cl (after w (present_read self op)) (present_create self op)) = Some f ->
  snd (ensure_present self op cl w) = Raised (uncaught f).
Proof.
  destruct w as [h l]; destruct op; unfold_method; intros Hr Hc.
  all: next_answer cl; try next_answer cl.
  all: injection Hc as <-; reflexivity.
Qed.

Lemma C8_create_failure_always_propagates_witness :
  let op := CreateOrUpdateConfigMap "app-config" sample_body false in
  let cl := uncreatable not_found conflict in
  failure (cl (history empty_world) (present_read manager op))
      = Some (ApiFailure not_found) /\
  failure (cl (after empty_world (present_read manager op))
             (present_create manager op)) = Some (ApiFailure conflict) /\
  snd (ensure_present manager op cl empty_world)
    = Raised (RaisedApiException conflict).
Proof.
  split; [reflexivity|].
  split; [reflexivity|].
  apply (C8_create_failure_always_propagates manager
           (CreateOrUpdateConfigMap "app-config" sample_body false)
           (uncreatable not_found conflict) empty_world not_found
           (ApiFailure conflict));
    reflexivity.
Defined.

(** ** Nodes *)

(** C9, as the manager has it: [update_node_labels] issues exactly one
    call, the patch of the named node with the body
    [{'metadata': {'labels': labels}}], and so no read before it.  When the
    patch succeeds it returns [None]; when the patch raises an
    [ApiException] [e] it raises [PolyaxonK8SError(e)] if [reraise] is set
    and returns [None] if it is not; when the patch raises an exception of
    another class, the handler does not catch it and it reaches the caller
    whatever [reraise] is. *)
Theorem C9_update_node_labels_blind_patch
    (self : K8SManager) (node : string) (labels : PyValue) (reraise : bool)
    (cl : Cluster) (w : World) :
  let body := PyDict [("metadata", PyDict [("labels", labels)])] in
  let run := update_node_labels self node labels reraise cl w in
  issued w (fst run) = [patch_node node body] /\
  existsb is_read (issued w (fst run)) = false /\
  snd run =
    match failure (cl (history w) (patch_node node body)) with
    | None => Returned PyNone
    | Some (ApiFailure e) =>
        if reraise then Raised (PolyaxonK8SError e) else Returned PyNone
    | Some (OtherFailure x) => Raised (RaisedOther x)
    end.
Proof.
  destruct w as [h l]; unfold_method.
  next_answer cl; try destruct reraise; cbn; tidy.
  all: repeat split.
Qed.

(** C9 as written fails: with [reraise] unset, [update_node_labels] still
    raises when the patch fails with an exception that is not an
    [ApiException]; here the server cannot be reached and the client's
    [MaxRetryError] passes the handler. *)
Lemma C9_counterexample :
  let body := PyDict [("metadata", PyDict [("labels", sample_body)])] in
  let run := update_node_labels manager "node-1" sample_body false
               (offline max_retry) empty_world in
  failure (offline max_retry [] (patch_node "node-1" body))
    = Some (OtherFailure max_retry) /\
  issued empty_world (fst run) = [patch_node "node-1" body] /\
  snd run = Raised (RaisedOther max_retry).
Proof. repeat split. Qed.

(** C10, as the manager has it: [get_node_items] returns the list of the
    node items when the list call succeeds; when the call raises an
    [ApiException] and [reraise] is unset it returns [None], which is not
    the empty list but has the same truth value as the empty list that a
    cluster without nodes gives; when the call raises an exception of
    another class nothing is returned: the exception reaches the caller
    whatever [reraise] is. *)
Theorem C10_get_node_items_none_on_swallowed_failure
    (self : K8SManager) (reraise : bool) (cl : Cluster) (w : World) :
  snd (get_node_items self reraise cl w) =
    match cl (history w) list_node with
    | Returns res => Returned (PyList (items res))
    | Raises e => if reraise then Raised (PolyaxonK8SError e) else Returned PyNone
    | RaisesOther x => Raised (RaisedOther x)
    end /\
  PyNone <> PyList [] /\
  truthy PyNone = truthy (PyList []).
Proof.
  destruct w as [h l]; unfold_method.
  next_answer cl; try destruct reraise; cbn.
  all: repeat split; try discriminate.
  all: now rewrite map_id.
Qed.

(** C10 as written fails: it is not on any client failure that
    [get_node_items] with [reraise] unset returns [None]; when the list
    call fails with the client's [MaxRetryError], which is not an
    [ApiException], the method raises it. *)
Lemma C10_counterexample :
  let run := get_node_items manager false (offline max_retry) empty_world in
  failure (offline max_retry [] list_node) = Some (OtherFailure max_retry) /\
  snd run = Raised (RaisedOther max_retry) /\
  snd run <> Returned PyNone.
Proof. repeat split. discriminate. Qed.

(** * Beyond the claims: the other paths of the manager *)

(** Case analysis on the next answer of [cl], keeping the answer. *)
Ltac next_answer_eq cl :=
  match goal with
  | |- context [match cl ?h ?c with _ => _ end] =>
      let E := fresh "E" in
      destruct (cl h c) eqn:E; cbn in *; try discriminate
  end.

(** ** The server version *)

(** X1: [get_version] issues exactly one call, [get_code].  When the call
    succeeds it returns the version as a dict and logs nothing; when the
    call raises an [ApiException] [e] it logs one ERROR record carrying [e]
    and then raises [PolyaxonK8SError(e)] if [reraise] is set and returns
    [None] if not; an exception of another class reaches the caller
    unlogged.  So a [None] from [get_version] always stands for a swallowed
    failure. *)
Theorem X1_get_version_behaviour
    (self : K8SManager) (reraise : bool) (cl : Cluster) (w : World) :
  let run := get_version self reraise cl w in
  issued w (fst run) = [get_code] /\
  match cl (history w) get_code with
  | Returns v =>
      snd run = Returned (PyDict (to_dict v)) /\ logged w (fst run) = []
  | Raises e =>
      snd run = (if reraise then Raised (PolyaxonK8SError e) else Returned PyNone) /\
      logged w (fst run) = [mkLogRecord ERROR "K8S error: {}" (ArgExc e)]
  | RaisesOther x =>
      snd run = Raised (RaisedOther x) /\ logged w (fst run) = []
  end /\
  (snd run = Returned PyNone ->
   reraise = false /\ failure (cl (history w) get_code) <> None).
Proof.
  destruct w as [h l]; unfold_method.
  next_answer cl; try destruct reraise; cbn; tidy.
  all: repeat split; try discriminate.
Qed.

Lemma X1_get_version_behaviour_witness :
  snd (get_version manager false (failing (fun _ => Some forbidden)) empty_world)
    = Returned PyNone /\
  false = false /\
  failure (failing (fun _ => Some forbidden) (history empty_world) get_code) <> None.
Proof.
  split; [reflexivity|].
  apply (X1_get_version_behaviour manager false (failing (fun _ => Some forbidden))
           empty_world).
  reflexivity.
Defined.

(** ** Ensure-present: the resource is there *)

(** X2: when the read of an ensure-present operation succeeds, the run
    issues the read and then the patch of the same name with the caller's
    body, and no create.  When the patch succeeds too the operation returns
    [None] and has logged the "was found" and "was patched" records of the
    kind, at INFO level for deployments and DEBUG for the others. *)
Theorem X2_found_resource_is_patched
    (self : K8SManager) (op : EnsurePresent) (cl : Cluster) (w : World) :
  failure (cl (history w) (present_read self op)) = None ->
  let w' := fst (ensure_present self op cl w) in
  issued w w' = [present_read self op; present_patch self op] /\
  existsb is_create (issued w w') = false /\
  call_name (present_patch self op) = Some (present_name op) /\
  call_body (present_patch self op) = Some (present_body op) /\
  (failure (cl (after w (present_read self op)) (present_patch self op)) = None ->
   snd (ensure_present self op cl w) = Returned PyNone /\
   logged w w'
     = [mkLogRecord (progress_level (present_kind op))
          (found_template (present_kind op)) (ArgStr (present_name op));
        mkLogRecord (progress_level (present_kind op))
          (patched_template (present_kind op)) (ArgStr (present_name op))]).
Proof.
  destruct w as [h l]; destruct op; unfold_method; intros Hr.
  all: next_answer cl; try next_answer cl; try destruct reraise; cbn; tidy.
  all: repeat split; try reflexivity; try discriminate.
Qed.

Lemma X2_found_resource_is_patched_witness :
  let op := CreateOrUpdateDeployment "worker" sample_body in
  let w' := fst (ensure_present manager op healthy empty_world) in
  failure (healthy (history empty_world) (present_read manager op)) = None /\
  issued empty_world w'
    = [read_namespaced_deployment "worker" "default";
       patch_namespaced_deployment "worker" "default" sample_body] /\
  snd (ensure_present manager op healthy empty_world) = Returned PyNone /\
  logged empty_world w'
    = [mkLogRecord INFO "A deployment with name `{}` was found" (ArgStr "worker");
       mkLogRecord INFO "Deployment `{}` was patched" (ArgStr "worker")].
Proof.
  destruct (X2_found_resource_is_patched manager
              (CreateOrUpdateDeployment "worker" sample_body) healthy empty_world
              eq_refl) as (Hcalls & _ & _ & _ & Hok).
  split; [reflexivity|].
  split; [exact Hcalls|].
  exact (Hok eq_refl).
Defined.



(** X4: when the read of an ensure-present operation raises, the log says
    nothing about that failure.  The run logs the kind's "was created"
    record if the create succeeds and logs nothing at all if the create
    raises; the create carries the caller's body and no name. *)
Theorem X4_create_path_log
    (self : K8SManager) (op : EnsurePresent) (cl : Cluster) (w : World)
    (e : ApiException) :
  failure (cl (history w) (present_read self op)) = Some (ApiFailure e) ->
  let w' := fst (ensure_present self op cl w) in
  logged w w' =
    match failure (cl (after w (present_read self op)) (present_create self op)) with
    | None =>
        [mkLogRecord (progress_level (present_kind op))
           (created_template (present_kind op)) (ArgStr (present_name op))]
    | Some _ => []
    end /\
  call_body (present_create self op) = Some (present_body op) /\
  call_name (present_create self op) = None.
Proof.
  destruct w as [h l]; destruct op; unfold_method; intros Hr.
  all: next_answer cl; try next_answer cl; tidy.
  all: repeat split.
Qed.

Lemma X4_create_path_log_witness :
  let cl := uncreatable not_found conflict in
  let op := CreateOrUpdatePod "job" sample_body in
  failure (cl (history empty_world) (present_read manager op))
      = Some (ApiFailure not_found) /\
  logged empty_world (fst (ensure_present manager op cl empty_world)) = [] /\
  call_body (present_create manager op) = Some sample_body /\
  call_name (present_create manager op) = None.
Proof.
  split; [reflexivity|].
  apply (X4_create_path_log manager (CreateOrUpdatePod "job" sample_body)
           (uncreatable not_found conflict) empty_world not_found).
  reflexivity.
Defined.

(** ** Every public method: calls, results, errors *)

Ltac unfold_invoke := unfold invoke, access.

(** X5: one execution of any public method issues at most two calls, of
    which at most one is a read and at most one changes the cluster; no
    call is repeated or retried, whatever the cluster answers. *)
Theorem X5_at_most_two_calls
    (self : K8SManager) (o : Operation) (cl : Cluster) (w : World) :
  let calls := issued w (fst (invoke self o cl w)) in
  1 <= length calls <= 2 /\
  length (filter is_read calls) <= 1 /\
  length (filter is_mutating calls) <= 1.
Proof.
  destruct w as [h l]; destruct o as [[| |]|op|op]; try destruct op;
    unfold_invoke; unfold_method.
  all: next_answer cl; try next_answer cl; try destruct reraise; cbn; tidy.
  all: cbn; repeat split; auto.
Qed.

(** X6: a run of an ensure-absent operation logs at most one record, and
    the record carries the resource name, never the exception: DEBUG
    "was not found" when the read raised an [ApiException], DEBUG "deleted"
    when the delete succeeded, WARNING "Could not delete" when the delete
    raised an [ApiException].  When the read or the delete raises an
    exception of another class, the handler is passed by and nothing is
    logged. *)
Theorem X6_ensure_absent_log
    (self : K8SManager) (op : EnsureAbsent) (cl : Cluster) (w : World) :
  let w' := fst (ensure_absent self op cl w) in
  logged w w' =
    match failure (cl (history w) (absent_read self op)),
          failure (cl (after w (absent_read self op)) (absent_delete self op)) with
    | Some (ApiFailure _), _ =>
        [mkLogRecord DEBUG (not_found_template (absent_kind op))
           (ArgStr (absent_name op))]
    | None, None =>
        [mkLogRecord DEBUG (deleted_template (absent_kind op))
           (ArgStr (absent_name op))]
    | None, Some (ApiFailure _) =>
        [mkLogRecord WARNING (could_not_delete_template (absent_kind op))
           (ArgStr (absent_name op))]
    | Some (OtherFailure _), _ | None, Some (OtherFailure _) => []
    end.
Proof.
  destruct w as [h l]; destruct op; unfold_method.
  all: next_answer cl; try next_answer cl; try destruct reraise; cbn; tidy.
  all: reflexivity.
Qed.

(** X7: the reconciling methods and [update_node_labels] have no result
    value: whenever one of them returns, it returns [None], so the caller
    cannot tell from the result whether the resource was created, patched,
    deleted or missing. *)
Theorem X7_reconcilers_return_none
    (self : K8SManager) (o : Operation) (cl : Cluster) (w : World) (v : PyValue) :
  snd (invoke self o cl w) = Returned v ->
  match o with
  | Access (GetVersion _) | Access (GetNodeItems _) => True
  | _ => v = PyNone
  end.
Proof.
  destruct w as [h l]; destruct o as [[| |]|op|op]; try destruct op;
    unfold_invoke; unfold_method; trivial.
  all: next_answer cl; try next_answer cl; try destruct reraise; cbn.
  all: intros H; try discriminate H; now injection H.
Qed.

Lemma X7_reconcilers_return_none_witness :
  snd (invoke manager (Present (CreateOrUpdateVolume "data" sample_body))
         (unreadable not_found) empty_world) = Returned PyNone /\
  PyNone = PyNone.
Proof.
  split; [reflexivity|].
  apply (X7_reconcilers_return_none manager
           (Present (CreateOrUpdateVolume "data" sample_body))
           (unreadable not_found) empty_world PyNone).
  reflexivity.
Defined.

(** X8: a [PolyaxonK8SError] raised by any public method wraps the
    exception with which the cluster answered the last call the method
    issued. *)
Theorem X8_wrapped_error_is_the_last_failure
    (self : K8SManager) (o : Operation) (cl : Cluster) (w : World)
    (e : ApiException) :
  snd (invoke self o cl w) = Raised (PolyaxonK8SError e) ->
  exists (h : list Call) (c : Call),
    history (fst (invoke self o cl w)) = (h ++ [c])%list /\
    cl h c = Raises e.
Proof.
  destruct w as [h l]; destruct o as [[| |]|op|op]; try destruct op;
    unfold_invoke; unfold_method.
  all: next_answer_eq cl; try next_answer_eq cl; try destruct reraise; cbn.
  all: intros H; try discriminate H; injection H as ->.
  all: eexists _, _; split; [reflexivity | eassumption].
Qed.

Lemma X8_wrapped_error_is_the_last_failure_witness :
  let run := invoke manager (Absent (DeletePod "job")) (undeletable conflict)
               empty_world in
  snd run = Raised (PolyaxonK8SError conflict) /\
  exists (h : list Call) (c : Call),
    history (fst run) = (h ++ [c])%list /\ undeletable conflict h c = Raises conflict.
Proof.
  split; [reflexivity|].
  apply (X8_wrapped_error_is_the_last_failure manager (Absent (DeletePod "job"))
           (undeletable conflict) empty_world conflict).
  reflexivity.
Defined.

(** X9: every call a public method issues for a namespaced kind carries
    the manager's namespace; the node, version and persistent volume calls
    carry none. *)
Theorem X9_calls_stay_in_the_namespace
    (self : K8SManager) (o : Operation) (cl : Cluster) (w : World) (c : Call) :
  In c (issued w (fst (invoke self o cl w))) ->
  call_namespace c = if namespaced o then Some (namespace self) else None.
Proof.
  destruct w as [h l]; destruct o as [[| |]|op|op]; try destruct op;
    unfold_invoke; unfold_method.
  all: next_answer cl; try next_answer cl; try destruct reraise; cbn; tidy.
  all: cbn; intros H; repeat (destruct H as [<-|H]; [reflexivity|]); destruct H.
Qed.

Lemma X9_calls_stay_in_the_namespace_witness :
  let self := mkK8SManager "team-a" in
  let o := Present (CreateOrUpdateVolumeClaim "data" sample_body) in
  let c := patch_namespaced_persistent_volume_claim "data" "team-a" sample_body in
  In c (issued empty_world (fst (invoke self o healthy empty_world))) /\
  call_namespace c = Some "team-a".
Proof.
  split; [right; left; reflexivity|].
  apply (X9_calls_stay_in_the_namespace (mkK8SManager "team-a")
           (Present (CreateOrUpdateVolumeClaim "data" sample_body)) healthy
           empty_world).
  right; left; reflexivity.
Defined.

(** X10: a method called with [reraise] unset never raises a
    [PolyaxonK8SError]; and [get_version], [get_node_items],
    [update_node_labels] and [delete_config_map] then swallow every
    [ApiException]: they return, unless the last call they issued raised an
    exception of another class, which is then what reaches the caller.
    ([create_or_update_config_map] also lets a failed create through.) *)
Theorem X10_reraise_unset_swallows
    (self : K8SManager) (o : Operation) (cl : Cluster) (w : World) :
  reraise_flag o = Some false ->
  let run := invoke self o cl w in
  (forall e, snd run <> Raised (PolyaxonK8SError e)) /\
  match o with
  | Present _ => True
  | _ =>
      (exists v, snd run = Returned v) \/
      (exists (h : list Call) (c : Call) (x : OtherException),
         history (fst run) = (h ++ [c])%list /\
         cl h c = RaisesOther x /\
         snd run = Raised (RaisedOther x))
  end.
Proof.
  destruct w as [h l]; destruct o as [[| |]|op|op]; try destruct op;
    unfold_invoke; unfold_method; intros Hf; try discriminate Hf;
    injection Hf as ->.
  all: next_answer_eq cl; try next_answer_eq cl; cbn.
  all: split; [intros ?; discriminate | try exact I].
  all: try (left; eexists; reflexivity).
  all: right; eexists _, _, _; split; [reflexivity | split; [eassumption | reflexivity]].
Qed.

Lemma X10_reraise_unset_swallows_witness :
  let o := Absent (DeleteConfigMap "app-config" false) in
  let run := invoke manager o (undeletable conflict) empty_world in
  reraise_flag o = Some false /\
  (forall e, snd run <> Raised (PolyaxonK8SError e)) /\
  ((exists v, snd run = Returned v) \/
   (exists (h : list Call) (c : Call) (x : OtherException),
      history (fst run) = (h ++ [c])%list /\
      undeletable conflict h c = RaisesOther x /\
      snd run = Raised (RaisedOther x))).
Proof.
  split; [reflexivity|].
  apply (X10_reraise_unset_swallows manager
           (Absent (DeleteConfigMap "app-config" false)) (undeletable conflict)
           empty_world).
  reflexivity.
Defined.

(** ** One method after another *)

Lemma snoc2 (h : list Call) (a b : Call) :
  ((h ++ [a]) ++ [b] = h ++ [a; b])%list.
Proof. now rewrite <- app_assoc. Qed.

Lemma snoc3 (h : list Call) (a b c : Call) :
  ((h ++ [a; b]) ++ [c] = h ++ [a; b; c])%list.
Proof. now rewrite <- app_assoc. Qed.

Lemma snoc4 (h : list Call) (a b c d : Call) :
  ((h ++ [a; b; c]) ++ [d] = h ++ [a; b; c; d])%list.
Proof. now rewrite <- app_assoc. Qed.

Ltac flatten_history := rewrite ?snoc2, ?snoc3, ?snoc4 in *.

(** X11: an ensure-present operation run twice creates once.  If the
    first read raises, the create succeeds and the cluster then answers the
    second read, the two runs issue read, create, read, patch: the first
    returns [None] after the create, and the second patches instead of
    creating again. *)
Theorem X11_second_run_patches
    (self : K8SManager) (op : EnsurePresent) (cl : Cluster) (w : World)
    (e : ApiException) :
  let read := present_read self op in
  let create := present_create self op in
  let patch := present_patch self op in
  failure (cl (history w) read) = Some (ApiFailure e) ->
  failure (cl (history w ++ [read])%list create) = None ->
  failure (cl (history w ++ [read; create])%list read) = None ->
  let run := then_run (ensure_present self op) (ensure_present self op) cl w in
  issued w (fst run) = [read; create; read; patch] /\
  length (filter is_create (issued w (fst run))) = 1 /\
  fst (snd run) = Returned PyNone /\
  (failure (cl (history w ++ [read; create; read])%list patch) = None ->
   snd (snd run) = Returned PyNone).
Proof.
  destruct w as [h l]; destruct op; unfold then_run; unfold_method;
    intros Hr Hc Hr2.
  all: next_answer cl; try next_answer cl; flatten_history.
  all: next_answer cl; flatten_history.
  all: next_answer cl; try destruct reraise; cbn; flatten_history.
  all: rewrite issued_app; repeat split; try reflexivity; try discriminate.
Qed.

Lemma X11_second_run_patches_witness :
  let op := CreateOrUpdateConfigMap "app-config" sample_body false in
  let read := present_read manager op in
  let create := present_create manager op in
  let cl := tracking false in
  let run := then_run (ensure_present manager op) (ensure_present manager op) cl
               empty_world in
  failure (cl (history empty_world) read) = Some (ApiFailure not_found) /\
  failure (cl (history empty_world ++ [read])%list create) = None /\
  failure (cl (history empty_world ++ [read; create])%list read) = None /\
  issued empty_world (fst run)
    = [read; create; read; present_patch manager op] /\
  length (filter is_create (issued empty_world (fst run))) = 1 /\
  fst (snd run) = Returned PyNone /\
  snd (snd run) = Returned PyNone.
Proof.
  destruct (X11_second_run_patches manager
              (CreateOrUpdateConfigMap "app-config" sample_body false)
              (tracking false) empty_world not_found eq_refl eq_refl eq_refl)
    as (Hcalls & Hone & Hfirst & Hsecond).
  do 3 (split; [reflexivity|]).
  split; [exact Hcalls|].
  split; [exact Hone|].
  split; [exact Hfirst|].
  exact (Hsecond eq_refl).
Defined.



(** ** The constructor *)

(** X13: construction and use.  A manager built with an explicit
    [k8s_config] consults no loader and puts its three API objects on one
    client of that configuration, whatever [in_cluster] says; one built
    without it has run exactly one loader, the in-cluster one if
    [in_cluster] is set and the kube-config one if not, and uses the
    default client.  Either way the namespace given to the constructor is
    the namespace of every namespaced call the manager issues later. *)
Theorem X13_constructed_manager
    (env : ConfigEnv) (k8s_config : option Configuration) (ns : string)
    (in_cluster : bool) (loaded : list ConfigLoader) (obj : Instance) :
  __init__ env k8s_config ns in_cluster = Constructed loaded obj ->
  match k8s_config with
  | Some cfg => loaded = [] /\ k8s_api obj = Some (mkApiClient cfg)
  | None =>
      loaded = [if in_cluster then load_incluster_config else load_kube_config] /\
      k8s_api obj = None
  end /\
  k8s_beta_api obj = k8s_api obj /\
  k8s_version_api obj = k8s_api obj /\
  forall (o : Operation) (cl : Cluster) (w : World) (c : Call),
    In c (issued w (fst (invoke (this obj) o cl w))) ->
    call_namespace c = if namespaced o then Some ns else None.
Proof.
  intros Hinit.
  assert (Hobj : exists api_client,
             obj = mkInstance api_client api_client api_client (mkK8SManager ns) /\
             match k8s_config with
             | Some cfg => loaded = [] /\ api_client = Some (mkApiClient cfg)
             | None =>
                 loaded = [if in_cluster then load_incluster_config
                           else load_kube_config] /\
                 api_client = None
             end).
  { unfold __init__, attempt in Hinit. destruct k8s_config as [cfg|].
    - repeat (destruct (env _); [discriminate Hinit|]).
      injection Hinit as <- <-. eexists; repeat split.
    - repeat (destruct (env _); [discriminate Hinit|]).
      injection Hinit as <- <-. eexists; repeat split. }
  destruct Hobj as (api_client & -> & Hcfg); cbn.
  split; [destruct k8s_config; exact Hcfg|].
  split; [reflexivity|].
  split; [reflexivity|].
  intros o cl [h l].
  destruct o as [[| |]|op|op]; try destruct op; unfold_invoke; unfold_method.
  all: next_answer cl; try next_answer cl; try destruct reraise; cbn; tidy.
  all: cbn; intros c H; repeat (destruct H as [<-|H]; [reflexivity|]); destruct H.
Qed.

Lemma X13_constructed_manager_witness :
  let env : ConfigEnv :=
    fun step => match step with
                | Load _ => Some "no configuration found"
                | _ => None
                end in
  let cfg := mkConfiguration "https://10.0.0.1:6443" in
  let obj := mkInstance (Some (mkApiClient cfg)) (Some (mkApiClient cfg))
               (Some (mkApiClient cfg)) (mkK8SManager "team-a") in
  __init__ env (Some cfg) "team-a" true = Constructed [] obj /\
  ([] : list ConfigLoader) = [] /\
  k8s_api obj = Some (mkApiClient cfg).
Proof.
  split; [reflexivity|].
  apply (X13_constructed_manager
           (fun step => match step with
                        | Load _ => Some "no configuration found"
                        | _ => None
                        end)
           (Some (mkConfiguration "https://10.0.0.1:6443")) "team-a" true []
           (mkInstance (Some (mkApiClient (mkConfiguration "https://10.0.0.1:6443")))
              (Some (mkApiClient (mkConfiguration "https://10.0.0.1:6443")))
              (Some (mkApiClient (mkConfiguration "https://10.0.0.1:6443")))
              (mkK8SManager "team-a"))).
  reflexivity.
Defined.

(** ** No look at the exception *)

(** Two answers to one call that differ in class. *)
Ltac clash Hsame :=
  match goal with
  | E1 : ?cl1 ?h ?c = _, E2 : ?cl2 ?h ?c = _ |- _ =>
      exfalso; generalize (Hsame h c); rewrite E1, E2; discriminate
  end.

(** X15: the manager never inspects the exception it catches.  On two
    clusters that fail the same calls with exceptions of the same class,
    of whatever status, reason or message, every public method issues the
    same calls, logs at the same levels and ends the same way, returning
    on both or raising on both. *)
Theorem X15_status_blind
    (self : K8SManager) (o : Operation) (cl1 cl2 : Cluster) (w : World) :
  same_failures cl1 cl2 ->
  let run1 := invoke self o cl1 w in
  let run2 := invoke self o cl2 w in
  issued w (fst run1) = issued w (fst run2) /\
  map levelname (logged w (fst run1)) = map levelname (logged w (fst run2)) /\
  returned (snd run1) = returned (snd run2).
Proof.
  intros Hsame.
  destruct w as [h l]; destruct o as [[| |]|op|op]; try destruct op;
    unfold_invoke; unfold_method.
  all: next_answer_eq cl1; next_answer_eq cl2; try clash Hsame.
  all: try (next_answer_eq cl1; next_answer_eq cl2; try clash Hsame).
  all: try destruct reraise; cbn; tidy; repeat split.
Qed.

Lemma X15_status_blind_witness :
  same_failures (unreadable forbidden) (unreadable not_found) /\
  let o := Absent (DeleteService "web") in
  let run1 := invoke manager o (unreadable forbidden) empty_world in
  let run2 := invoke manager o (unreadable not_found) empty_world in
  issued empty_world (fst run1) = issued empty_world (fst run2) /\
  map levelname (logged empty_world (fst run1))
    = map levelname (logged empty_world (fst run2)) /\
  returned (snd run1) = returned (snd run2).
Proof.
  assert (H : same_failures (unreadable forbidden) (unreadable not_found)).
  { intros h c. unfold unreadable, failing. destruct (verb c); reflexivity. }
  split; [exact H|].
  apply (X15_status_blind manager (Absent (DeleteService "web"))
           (unreadable forbidden) (unreadable not_found) empty_world H).
Defined.

(** ** Accessors: what is logged; reconcilers: what is named *)

(** X16: [get_version], [get_node_items] and [update_node_labels] issue
    their one call and log nothing when it succeeds; when it raises an
    [ApiException] [e] they log exactly one ERROR record carrying [e],
    whether [reraise] then makes them raise or not; when it raises an
    exception of another class they log nothing, and that exception
    reaches the caller as it is. *)
Theorem X16_accessor_log
    (self : K8SManager) (a : Accessor) (cl : Cluster) (w : World) :
  let run := access self a cl w in
  issued w (fst run) = [access_call a] /\
  match failure (cl (history w) (access_call a)) with
  | None => logged w (fst run) = []
  | Some (ApiFailure e) =>
      logged w (fst run) = [mkLogRecord ERROR "K8S error: {}" (ArgExc e)]
  | Some (OtherFailure x) =>
      logged w (fst run) = [] /\ snd run = Raised (RaisedOther x)
  end.
Proof.
  destruct w as [h l]; destruct a; unfold access; unfold_method.
  all: next_answer cl; try destruct reraise; cbn; tidy.
  all: repeat split.
Qed.

(** X17: every call a method issues that takes a resource name carries
    the name the method was given; the create calls take none, so what is
    created is named by the body alone. *)
Theorem X17_calls_carry_the_given_name
    (self : K8SManager) (o : Operation) (cl : Cluster) (w : World) (c : Call) :
  In c (issued w (fst (invoke self o cl w))) ->
  call_name c = if is_create c then None else target_name o.
Proof.
  destruct w as [h l]; destruct o as [[| |]|op|op]; try destruct op;
    unfold_invoke; unfold_method.
  all: next_answer cl; try next_answer cl; try destruct reraise; cbn; tidy.
  all: cbn; intros H; repeat (destruct H as [<-|H]; [reflexivity|]); destruct H.
Qed.

Lemma X17_calls_carry_the_given_name_witness :
  let o := Present (CreateOrUpdateService "web" sample_body) in
  let c := create_namespaced_service "default" sample_body in
  In c (issued empty_world (fst (invoke manager o (unreadable not_found)
                                   empty_world))) /\
  call_name c = None.
Proof.
  split; [right; left; reflexivity|].
  apply (X17_calls_carry_the_given_name manager
           (Present (CreateOrUpdateService "web" sample_body))
           (unreadable not_found) empty_world).
  right; left; reflexivity.
Defined.
